(** * Dane County Elections MCP server: the dispatcher, the API gateway and
      the tool registry of [src/index.ts], embedded and verified.

    The embedding follows the TypeScript source function by function.
    JavaScript strings are Rocq strings (read as UTF-8 text), the argument
    object of a tool call is a finite map from property names to strings
    (the registry declares every property with [type: "string"]), and
    [async] functions are computations in a small monad that threads the
    log of gateway invocations and network fetches and carries JavaScript's
    [throw]. *)

From Stdlib Require Import Ascii String ZArith NArith List Bool Lia.
From Stdlib Require Import DecimalString DecimalN DecimalZ DecimalFacts.
From stdpp Require Import base option gmap strings list.
Import ListNotations.

Local Open Scope string_scope.
Local Open Scope list_scope.

(** ** Characters used by the serializer and the parser *)

Definition QUOTE : ascii := "034"%char.
Definition BACKSLASH : ascii := "\"%char.
Definition LF : ascii := "010"%char.
Definition CR : ascii := "013"%char.
Definition TAB : ascii := "009"%char.
Definition BS : ascii := "008"%char.
Definition FF : ascii := "012"%char.

Definition str1 (c : ascii) : string := String c EmptyString.

(** [String.prototype.includes]. *)
Fixpoint includes (needle hay : string) : bool :=
  String.prefix needle hay
  || match hay with
     | EmptyString => false
     | String _ hay' => includes needle hay'
     end.

(** [Array.prototype.join] on strings. *)
Fixpoint join (sep : string) (parts : list string) : string :=
  match parts with
  | [] => EmptyString
  | [p] => p
  | p :: ps => p +:+ sep +:+ join sep ps
  end.

(** [Number::toString] on the integers: decimal digits, with a leading
    minus sign for the negative ones. *)
Definition N_to_string (n : N) : string :=
  NilEmpty.string_of_uint (N.to_uint n).

Definition Z_to_string (z : Z) : string :=
  match z with
  | Zneg p => String "-" (N_to_string (Npos p))
  | _ => N_to_string (Z.to_N z)
  end.

(** ** JSON values, [JSON.stringify] and [JSON.parse] *)

Module JSON.

(** A JSON value as [response.json()] produces it.  Numbers are the
    integer-valued ones; an object is the list of its own properties in
    property order. *)
Unset Elimination Schemes.
Inductive value : Type :=
| Null
| Bool (b : bool)
| Num (n : Z)
| Str (s : string)
| Arr (elems : list value)
| Obj (props : list (string * value)).
Set Elimination Schemes.

(** *** Serialization (ECMA-262, JSON.stringify with a gap) *)

Definition hex_digit (n : N) : ascii :=
  match n with
  | 0 => "0" | 1 => "1" | 2 => "2" | 3 => "3" | 4 => "4" | 5 => "5"
  | 6 => "6" | 7 => "7" | 8 => "8" | 9 => "9" | 10 => "a" | 11 => "b"
  | 12 => "c" | 13 => "d" | 14 => "e" | _ => "f"
  end%N%char.

(** [UnicodeEscape]: backslash, [u] and four lowercase hex digits. *)
Definition UnicodeEscape (c : ascii) : string :=
  let n := N_of_ascii c in
  String BACKSLASH (String "u" (String "0" (String "0"
    (String (hex_digit (n / 16)) (String (hex_digit (n mod 16)) EmptyString))))).

Definition escape_char (c : ascii) : string :=
  if Ascii.eqb c BS then String BACKSLASH "b"
  else if Ascii.eqb c TAB then String BACKSLASH "t"
  else if Ascii.eqb c LF then String BACKSLASH "n"
  else if Ascii.eqb c FF then String BACKSLASH "f"
  else if Ascii.eqb c CR then String BACKSLASH "r"
  else if Ascii.eqb c QUOTE then String BACKSLASH (str1 QUOTE)
  else if Ascii.eqb c BACKSLASH then String BACKSLASH (str1 BACKSLASH)
  else if (N_of_ascii c <? 32)%N then UnicodeEscape c
  else str1 c.

Fixpoint escape_chars (s : string) : string :=
  match s with
  | EmptyString => EmptyString
  | String c s' => escape_char c +:+ escape_chars s'
  end.

Definition QuoteJSONString (s : string) : string :=
  String QUOTE (escape_chars s +:+ str1 QUOTE).

(** The gap of [JSON.stringify(value, null, 2)]: two spaces. *)
Definition gap : string := "  ".

(** [SerializeJSONProperty], with [SerializeJSONArray] and
    [SerializeJSONObject] inlined; [indent] is the current indentation,
    the [stepback] of the nested calls. *)
Fixpoint SerializeJSONProperty (indent : string) (v : value) : string :=
  match v with
  | Null => "null"
  | Bool true => "true"
  | Bool false => "false"
  | Num n => Z_to_string n
  | Str s => QuoteJSONString s
  | Arr elems =>
      let stepback := indent in
      let indent := indent +:+ gap in
      match elems with
      | [] => "[]"
      | _ =>
          let separator := String "," (String LF indent) in
          let properties :=
            join separator (map (SerializeJSONProperty indent) elems) in
          String "[" (String LF (indent +:+ properties
            +:+ String LF (stepback +:+ "]")))
      end
  | Obj props =>
      let stepback := indent in
      let indent := indent +:+ gap in
      match props with
      | [] => "{}"
      | _ =>
          let separator := String "," (String LF indent) in
          let member (kv : string * value) :=
            QuoteJSONString (fst kv) +:+ ": "
            +:+ SerializeJSONProperty indent (snd kv) in
          let properties := join separator (map member props) in
          String "{" (String LF (indent +:+ properties
            +:+ String LF (stepback +:+ "}")))
      end
  end.

(** [JSON.stringify(v, null, 2)]. *)
Definition stringify (v : value) : string :=
  SerializeJSONProperty EmptyString v.

(** *** Own-property order of a JavaScript object *)

(** An array index: the canonical decimal numeral of an integer below
    [2^32 - 1]. *)
Definition array_index (key : string) : option N :=
  match NilEmpty.uint_of_string key with
  | Some u =>
      let n := N.of_uint u in
      if String.eqb (N_to_string n) key && (n <? 4294967295)%N
      then Some n else None
  | None => None
  end.





(** The keys of an object as the engine enumerates them: array indices
    in ascending order, then the other keys, none twice. *)
Fixpoint other_keys_ok (keys : list string) : bool :=
  match keys with
  | [] => true
  | k :: rest =>
      match array_index k with
      | Some _ => false
      | None => negb (existsb (String.eqb k) rest) && other_keys_ok rest
      end
  end.

Fixpoint key_order_ok (bound : option N) (keys : list string) : bool :=
  match keys with
  | [] => true
  | k :: rest =>
      match array_index k with
      | Some i =>
          match bound with
          | Some b => (b <? i)%N
          | None => true
          end && key_order_ok (Some i) rest
      | None => other_keys_ok keys
      end
  end.


(** *** Parsing (the JSON grammar of ECMA-404) *)



Definition is_digit (c : ascii) : bool :=
  (48 <=? N_of_ascii c)%N && (N_of_ascii c <=? 57)%N.












(** *** Notions used to state the round trip *)







End JSON.

Abbreviation chars := list_ascii_of_string.

(** ** The runtime: thrown values, promises and the network *)

(** What a [throw] carries: an instance of [Error] (or of a subclass such
    as [TypeError] or [SyntaxError]), of which the code reads only the
    [message], or any other value. *)
Inductive thrown : Type :=
| ErrorInstance (message : string)
| NonError (v : JSON.value).

(** [new Error(message)]. *)
Definition new_Error (message : string) : thrown := ErrorInstance message.

(** How an awaited computation settles. *)
Inductive completion (A : Type) : Type :=
| Returned (a : A)
| Thrown (e : thrown).
Arguments Returned {A} a.
Arguments Thrown {A} e.

(** What the process did, in order. *)
Inductive event : Type :=
| Invoked (endpoint : string)                  (* makeApiRequest entered *)
| Fetched (url : string) (headers : list (string * string)).   (* fetch *)

(** An [async] computation: it reads and extends the log of events. *)
Definition Promise (A : Type) : Type := list event -> completion A * list event.

Definition ret {A} (a : A) : Promise A := fun log => (Returned a, log).

Definition throw {A} (e : thrown) : Promise A := fun log => (Thrown e, log).

Definition bind {A B} (m : Promise A) (k : A -> Promise B) : Promise B :=
  fun log =>
    match m log with
    | (Returned a, log') => k a log'
    | (Thrown e, log') => (Thrown e, log')
    end.

(** [try { body } catch (error) { handler }]. *)
Definition try_catch {A} (body : Promise A) (handler : thrown -> Promise A)
    : Promise A :=
  fun log =>
    match body log with
    | (Returned a, log') => (Returned a, log')
    | (Thrown e, log') => handler e log'
    end.

Definition settle {A} (c : completion A) : Promise A := fun log => (c, log).

Definition tell (e : event) : Promise unit :=
  fun log => (Returned tt, log ++ [e]).

Declare Scope promise_scope.
Delimit Scope promise_scope with promise.
Notation "x <- m ;; k" := (bind m (fun x => k))
  (at level 100, m at next level, right associativity) : promise_scope.
Notation "m ;; k" := (bind m (fun _ => k))
  (at level 100, right associativity) : promise_scope.
Local Open Scope promise_scope.

(** The [Response] of [fetch], as far as the code looks at it;
    [json] is how [response.json()] settles. *)
Record Response : Type := {
  ok : bool;
  status : N;
  statusText : string;
  json : completion JSON.value
}.

(** The remote service and the transport: how a fetch issued after the
    events of the log settles. *)
Definition Network : Type :=
  list event -> string -> list (string * string) -> completion Response.

Definition fetch (net : Network) (url : string)
    (headers : list (string * string)) : Promise Response :=
  fun log => (net log url headers, log ++ [Fetched url headers]).

(** ** The API gateway *)

Definition BASE_URL : string := "https://api.danecounty.gov".

Definition FETCH_FAILED : string :=
  "Failed to fetch from Dane County Elections API: ".

Definition makeApiRequest (net : Network) (endpoint : string)
    : Promise JSON.value :=
  tell (Invoked endpoint) ;;
  let url := BASE_URL +:+ endpoint in
  try_catch
    (response <- fetch net url
         [("Accept", "application/json");
          ("User-Agent", "dane-county-elections-mcp/1.0.0")] ;;
     (if negb (ok response)
      then throw (new_Error ("API request failed: "
                    +:+ N_to_string (status response) +:+ " "
                    +:+ statusText response))
      else ret tt) ;;
     data <- settle (json response) ;;
     ret data)
    (fun error =>
       match error with
       | ErrorInstance message => throw (new_Error (FETCH_FAILED +:+ message))
       | _ => throw error
       end).

(** ** The tool registry *)

Record Property : Type := {
  property_type : string;
  property_description : string
}.

Record InputSchema : Type := {
  schema_type : string;
  properties : list (string * Property);
  required : option (list string)
}.

Record Tool : Type := {
  name : string;
  description : string;
  inputSchema : InputSchema
}.

Definition electionid_property : string * Property :=
  ("electionid",
   {| property_type := "string";
      property_description := "The unique identifier for the election" |}).

Definition TOOLS : list Tool := [
  {| name := "list_elections";
     description := "Get a list of all available elections in Dane County";
     inputSchema := {| schema_type := "object"; properties := [];
                       required := None |} |};
  {| name := "get_election";
     description :=
       "Get detailed information about a specific election by its ID";
     inputSchema := {| schema_type := "object";
                       properties := [electionid_property];
                       required := Some ["electionid"] |} |};
  {| name := "get_last_published";
     description := "Get the last published timestamp for a specific election";
     inputSchema := {| schema_type := "object";
                       properties := [electionid_property];
                       required := Some ["electionid"] |} |};
  {| name := "get_races";
     description := "Get all races for a specific election";
     inputSchema := {| schema_type := "object";
                       properties := [electionid_property];
                       required := Some ["electionid"] |} |};
  {| name := "get_election_results";
     description := "Get results for all races in an election, or for a specific race if racenumber is provided";
     inputSchema :=
       {| schema_type := "object";
          properties := [
            electionid_property;
            ("racenumber",
             {| property_type := "string";
                property_description :=
                  "Optional: The race number to get specific race results" |})];
          required := Some ["electionid"] |} |};
  {| name := "get_precinct_results";
     description :=
       "Get precinct-level results for a specific race in an election";
     inputSchema :=
       {| schema_type := "object";
          properties := [
            electionid_property;
            ("racenumber",
             {| property_type := "string";
                property_description :=
                  "The race number to get precinct results for" |})];
          required := Some ["electionid"; "racenumber"] |} |}
].

(** The required parameters a descriptor declares; none when it has no
    [required] field. *)
Definition required_params (t : Tool) : list string :=
  default [] (required (inputSchema t)).

(** ** The dispatcher *)

(** The argument object: property name to string value. *)
Abbreviation Args := (gmap string string).

(** ToBoolean of [args.p]: [undefined] and the empty string are falsy. *)
Definition truthy (v : option string) : bool :=
  match v with
  | Some s => negb (String.eqb s EmptyString)
  | None => false
  end.

(** [${args.p}] in a template literal. *)
Definition interpolate (v : option string) : string :=
  match v with
  | Some s => s
  | None => "undefined"
  end.

Definition handleToolCall (net : Network) (name : string) (args : Args)
    : Promise JSON.value :=
  if String.eqb name "list_elections" then
    makeApiRequest net "/api/v1/elections/list"
  else if String.eqb name "get_election" then
    if negb (truthy (args !! "electionid")) then
      throw (new_Error "electionid is required")
    else
      makeApiRequest net
        ("/api/v1/elections/election/" +:+ interpolate (args !! "electionid"))
  else if String.eqb name "get_last_published" then
    if negb (truthy (args !! "electionid")) then
      throw (new_Error "electionid is required")
    else
      makeApiRequest net
        ("/api/v1/elections/lastpublished/"
           +:+ interpolate (args !! "electionid"))
  else if String.eqb name "get_races" then
    if negb (truthy (args !! "electionid")) then
      throw (new_Error "electionid is required")
    else
      makeApiRequest net
        ("/api/v1/elections/races/" +:+ interpolate (args !! "electionid"))
  else if String.eqb name "get_election_results" then
    if negb (truthy (args !! "electionid")) then
      throw (new_Error "electionid is required")
    else
      let resultsEndpoint :=
        if truthy (args !! "racenumber")
        then "/api/v1/elections/electionresults/"
               +:+ interpolate (args !! "electionid") +:+ "/"
               +:+ interpolate (args !! "racenumber")
        else "/api/v1/elections/electionresults/"
               +:+ interpolate (args !! "electionid") in
      makeApiRequest net resultsEndpoint
  else if String.eqb name "get_precinct_results" then
    if negb (truthy (args !! "electionid"))
       || negb (truthy (args !! "racenumber")) then
      throw (new_Error "electionid and racenumber are required")
    else
      makeApiRequest net
        ("/api/v1/elections/precinctresults/"
           +:+ interpolate (args !! "electionid") +:+ "/"
           +:+ interpolate (args !! "racenumber"))
  else
    throw (new_Error ("Unknown tool: " +:+ name)).

(** ** The request handlers *)

Record CallToolParams : Type := {
  params_name : string;
  arguments : option Args
}.

Record TextContent : Type := {
  type : string;
  text : string
}.

Record CallToolResult : Type := {
  content : list TextContent;
  isError : option bool
}.

Record ListToolsResult : Type := {
  tools : list Tool
}.

(** The handler registered for [ListToolsRequestSchema]. *)
Definition listToolsHandler : Promise ListToolsResult :=
  ret {| tools := TOOLS |}.

(** The handler registered for [CallToolRequestSchema];
    [args || {}] is [default ∅ (arguments params)]. *)
Definition callToolHandler (net : Network) (params : CallToolParams)
    : Promise CallToolResult :=
  try_catch
    (let name := params_name params in
     let args := arguments params in
     result <- handleToolCall net name (default ∅ args) ;;
     ret {| content := [{| type := "text";
                           text := JSON.stringify result |}];
            isError := None |})
    (fun error =>
       let errorMessage :=
         match error with
         | ErrorInstance message => message
         | _ => "Unknown error occurred"
         end in
       ret {| content := [{| type := "text";
                             text := "Error: " +:+ errorMessage |}];
              isError := Some true |}).

(** ** The server as the host drives it *)

Inductive Request : Type :=
| ListToolsRequest
| CallToolRequest (params : CallToolParams).

Inductive Result : Type :=
| ToolsListed (r : ListToolsResult)
| ToolCalled (r : CallToolResult).

Definition handleRequest (net : Network) (req : Request) : Promise Result :=
  match req with
  | ListToolsRequest => r <- listToolsHandler ;; ret (ToolsListed r)
  | CallToolRequest params =>
      r <- callToolHandler net params ;; ret (ToolCalled r)
  end.

(** The requests of a session, served one after the other. *)
Fixpoint serve (net : Network) (reqs : list Request) : Promise (list Result) :=
  match reqs with
  | [] => ret []
  | req :: reqs' =>
      r <- handleRequest net req ;;
      rs <- serve net reqs' ;;
      ret (r :: rs)
  end.

(** ** Paths and URLs *)

(** The query component of a URL or of a relative reference (RFC 3986):
    what follows the first question mark, up to the fragment. *)
Fixpoint before_char (c : ascii) (s : string) : string :=
  match s with
  | EmptyString => EmptyString
  | String a s' => if Ascii.eqb a c then EmptyString
                   else String a (before_char c s')
  end.

Fixpoint after_char (c : ascii) (s : string) : option string :=
  match s with
  | EmptyString => None
  | String a s' => if Ascii.eqb a c then Some s' else after_char c s'
  end.

Definition query_component (url : string) : option string :=
  after_char "?" (before_char "#" url).

(** ** The operations as the specification tabulates them *)

(** The value of an argument in a path of the specification's table. *)
Definition argument (args : Args) (p : string) : string :=
  default EmptyString (args !! p).

(** A required argument is supplied when it is present and not empty. *)
Definition supplied (args : Args) (p : string) : Prop :=
  exists s, args !! p = Some s /\ s <> EmptyString.

(** The per-operation path table of the specification; the race segment of
    [get_election_results] is there only for a supplied race number. *)
Definition path_table (operation : string) (args : Args) : option string :=
  if String.eqb operation "list_elections" then
    Some "/api/v1/elections/list"
  else if String.eqb operation "get_election" then
    Some ("/api/v1/elections/election/" +:+ argument args "electionid")
  else if String.eqb operation "get_last_published" then
    Some ("/api/v1/elections/lastpublished/" +:+ argument args "electionid")
  else if String.eqb operation "get_races" then
    Some ("/api/v1/elections/races/" +:+ argument args "electionid")
  else if String.eqb operation "get_election_results" then
    Some ("/api/v1/elections/electionresults/" +:+ argument args "electionid"
            +:+ (if String.eqb (argument args "racenumber") EmptyString
                 then EmptyString
                 else "/" +:+ argument args "racenumber"))
  else if String.eqb operation "get_precinct_results" then
    Some ("/api/v1/elections/precinctresults/" +:+ argument args "electionid"
            +:+ "/" +:+ argument args "racenumber")
  else None.

(** The headers every fetch carries. *)
Definition HEADERS : list (string * string) :=
  [("Accept", "application/json");
   ("User-Agent", "dane-county-elections-mcp/1.0.0")].

(** The endpoints the gateway was invoked with, in order. *)
Fixpoint gateway_calls (log : list event) : list string :=
  match log with
  | [] => []
  | Invoked endpoint :: log' => endpoint :: gateway_calls log'
  | Fetched _ _ :: log' => gateway_calls log'
  end.

(** The response envelopes. *)
Definition success_envelope (result : JSON.value) : CallToolResult :=
  {| content := [{| type := "text"; text := JSON.stringify result |}];
     isError := None |}.

Definition error_envelope (message : string) : CallToolResult :=
  {| content := [{| type := "text"; text := "Error: " +:+ message |}];
     isError := Some true |}.

(** The message the call handler reports for a caught value. *)
Definition reported_message (e : thrown) : string :=
  match e with
  | ErrorInstance message => message
  | NonError _ => "Unknown error occurred"
  end.

(** ** Sample services and calls *)

(** No network: every fetch fails with a [TypeError]. *)
Definition offline : Network :=
  fun _ _ _ => Thrown (ErrorInstance "fetch failed").

(** A service that answers every request with [{"elections":[]}]. *)
Definition empty_list_service : Network :=
  fun _ _ _ =>
    Returned {| ok := true; status := 200; statusText := "OK";
                json := Returned (JSON.Obj [("elections", JSON.Arr [])]) |}.

(** A service that answers every request with status 500. *)
Definition failing_service : Network :=
  fun _ _ _ =>
    Returned {| ok := false; status := 500;
                statusText := "Internal Server Error";
                json := Returned JSON.Null |}.

(** A transport that throws a string instead of an [Error]. *)
Definition odd_transport : Network :=
  fun _ _ _ => Thrown (NonError (JSON.Str "boom")).

Definition general_2024 : Args := {[ "electionid" := "2024-general" ]}.

Definition general_2024_race_5 : Args :=
  {[ "electionid" := "2024-general"; "racenumber" := "5" ]}.

(** The descriptor at a position of the registry. *)
Definition nth_tool (i : nat) : Tool :=
  nth i TOOLS
    {| name := EmptyString; description := EmptyString;
       inputSchema := {| schema_type := EmptyString; properties := [];
                         required := None |} |}.

(** The events of one call of [list_elections] from an empty log. *)
Definition list_call_log : list event :=
  [Invoked "/api/v1/elections/list";
   Fetched "https://api.danecounty.gov/api/v1/elections/list" HEADERS].

(** What the gateway reports for the failing service. *)
Definition status_500_message : string :=
  "Failed to fetch from Dane County Elections API: API request failed: 500 Internal Server Error".

(** ** The dispatcher as a table *)

(** The descriptor registered under a name. *)
Definition find_tool (operation : string) : option Tool :=
  find (fun t => String.eqb operation (name t)) TOOLS.

(** What the dispatcher decides before any network activity. *)
Inductive decision : Type :=
| Call (path : string)
| Reject (message : string).

(** The validation message for a list of required parameters. *)
Definition required_message (params : list string) : string :=
  join " and " params
  +:+ match params with
      | [_] => " is required"
      | _ => " are required"
      end.

(** A dispatcher driven by the registry and the path table: look the
    operation up, check its required parameters, take the path. *)
Definition decide_call (operation : string) (args : Args) : decision :=
  match find_tool operation, path_table operation args with
  | Some t, Some path =>
      if forallb (fun p => truthy (args !! p)) (required_params t)
      then Call path
      else Reject (required_message (required_params t))
  | _, _ => Reject ("Unknown tool: " +:+ operation)
  end.

Definition run_decision (net : Network) (d : decision) : Promise JSON.value :=
  match d with
  | Call path => makeApiRequest net path
  | Reject message => throw (new_Error message)
  end.

(** A registered operation with its required arguments supplied. *)
Definition valid_call (operation : string) (args : Args) : Prop :=
  exists t, In t TOOLS /\ name t = operation
            /\ forall p, In p (required_params t) -> supplied args p.

(** The parameters a descriptor declares. *)
Definition declared_params (t : Tool) : list string :=
  map fst (properties (inputSchema t)).

(** ** Upstream requests *)




(** A network whose answers do not depend on what happened before. *)
Definition stationary (net : Network) : Prop :=
  forall log log' url headers, net log url headers = net log' url headers.

(** A string without a slash. *)
Definition no_slash (s : string) : Prop := includes "/" s = false.

(** ** Process start *)

(** The request schemas a handler is registered for. *)
Inductive Schema : Type :=
| ListToolsRequestSchema
| CallToolRequestSchema.

(** How the calls into the protocol SDK settle during start-up. *)
Record Sdk : Type := {
  new_Server : completion unit;
  setRequestHandler : Schema -> completion unit;
  new_StdioServerTransport : completion unit;
  connect : completion unit
}.

(** What start-up does to the process. *)
Inductive effect : Type :=
| Registered (schema : Schema)
| Connected
| ConsoleError (line : string)
| ConsoleErrorWith (line : string) (error : thrown)
| Exit (code : Z).

(** A start-up computation: its outcome and the effects it caused. *)
Definition Startup (A : Type) : Type := completion A * list effect.

Definition done {A} (a : A) : Startup A := (Returned a, []).

Definition effect_of (e : effect) : Startup unit := (Returned tt, [e]).

Definition call_sdk (c : completion unit) (on_return : list effect)
    : Startup unit :=
  match c with
  | Returned _ => (Returned tt, on_return)
  | Thrown e => (Thrown e, [])
  end.

Definition and_then {A B} (m : Startup A) (k : A -> Startup B) : Startup B :=
  match m with
  | (Returned a, effects) =>
      let (c, effects') := k a in (c, effects ++ effects')
  | (Thrown e, effects) => (Thrown e, effects)
  end.

Definition READY : string :=
  "Dane County Elections MCP Server running on stdio".

(** [main]: build the server, register the two handlers, connect the
    stdio transport, report readiness on the diagnostic stream. *)
Definition main (sdk : Sdk) : Startup unit :=
  and_then (call_sdk (new_Server sdk) []) (fun _ =>
  and_then (call_sdk (setRequestHandler sdk ListToolsRequestSchema)
              [Registered ListToolsRequestSchema]) (fun _ =>
  and_then (call_sdk (setRequestHandler sdk CallToolRequestSchema)
              [Registered CallToolRequestSchema]) (fun _ =>
  and_then (call_sdk (new_StdioServerTransport sdk) []) (fun _ =>
  and_then (call_sdk (connect sdk) [Connected]) (fun _ =>
  effect_of (ConsoleError READY)))))).

(** [main().catch(...)]: a failed start-up is reported and ends the
    process with status 1. *)
Definition start (sdk : Sdk) : list effect :=
  match main sdk with
  | (Returned _, effects) => effects
  | (Thrown error, effects) =>
      effects ++ [ConsoleErrorWith "Fatal error in main():" error; Exit 1]
  end.

(** An SDK all of whose start-up calls return. *)
Definition working_sdk : Sdk :=
  {| new_Server := Returned tt;
     setRequestHandler := fun _ => Returned tt;
     new_StdioServerTransport := Returned tt;
     connect := Returned tt |}.

(** An SDK whose transport cannot be connected. *)
Definition broken_pipe_sdk : Sdk :=
  {| new_Server := Returned tt;
     setRequestHandler := fun _ => Returned tt;
     new_StdioServerTransport := Returned tt;
     connect := Thrown (ErrorInstance "write EPIPE") |}.

(** Every start-up call into the SDK returns. *)
Definition all_return (sdk : Sdk) : Prop :=
  new_Server sdk = Returned tt
  /\ setRequestHandler sdk ListToolsRequestSchema = Returned tt
  /\ setRequestHandler sdk CallToolRequestSchema = Returned tt
  /\ new_StdioServerTransport sdk = Returned tt
  /\ connect sdk = Returned tt.

(** * Verification *)

(** ** Strings *)

Lemma append_cons (c : ascii) (s t : string) :
  String c s +:+ t = String c (s +:+ t).
Proof. reflexivity. Qed.

Lemma append_nil_r (s : string) : s +:+ EmptyString = s.
Proof.
  induction s as [|c s IH]; [reflexivity |].
  rewrite append_cons, IH. reflexivity.
Qed.

Lemma append_assoc (a b c : string) : (a +:+ b) +:+ c = a +:+ b +:+ c.
Proof.
  induction a as [|x a IH]; [reflexivity |].
  rewrite !append_cons, IH. reflexivity.
Qed.




Lemma prefix_append (t b : string) : String.prefix t (t +:+ b) = true.
Proof.
  induction t as [|c t IH]; simpl.
  - destruct b; reflexivity.
  - destruct (ascii_dec c c); [exact IH | congruence].
Qed.

Lemma includes_prefix (t s : string) :
  String.prefix t s = true -> includes t s = true.
Proof. intros H. destruct s; cbn [includes]; rewrite H; reflexivity. Qed.

Lemma includes_append (a t b : string) : includes t (a +:+ t +:+ b) = true.
Proof.
  induction a as [|c a IH].
  - change (includes t (t +:+ b) = true). apply includes_prefix, prefix_append.
  - change (includes t (String c (a +:+ t +:+ b)) = true).
    cbn [includes]. rewrite IH. apply orb_true_r.
Qed.

Lemma prefix_char (c x : ascii) (s : string) :
  String.prefix (str1 c) (String x s) = Ascii.eqb x c.
Proof.
  unfold str1. cbn [String.prefix].
  destruct (ascii_dec c x) as [-> | Hne].
  - rewrite Ascii.eqb_refl. destruct s; reflexivity.
  - symmetry. apply Ascii.eqb_neq. congruence.
Qed.

Lemma includes_char_cons (c x : ascii) (s : string) :
  includes (str1 c) (String x s) = Ascii.eqb x c || includes (str1 c) s.
Proof. cbn [includes]. rewrite prefix_char. reflexivity. Qed.

Lemma includes_char_append (c : ascii) (a b : string) :
  includes (str1 c) (a +:+ b) = includes (str1 c) a || includes (str1 c) b.
Proof.
  induction a as [|x a IH]; [reflexivity |].
  rewrite append_cons, !includes_char_cons, IH. apply orb_assoc.
Qed.

(** A string without a question mark has no query component. *)
Lemma query_component_none (s : string) :
  includes "?" s = false -> query_component s = None.
Proof.
  unfold query_component. change "?" with (str1 "?").
  induction s as [|a s IH]; [reflexivity |].
  rewrite includes_char_cons. intros H. apply orb_false_iff in H as [Ha Hs].
  cbn [before_char]. destruct (Ascii.eqb a "#"); [reflexivity |].
  cbn [after_char]. rewrite Ha. exact (IH Hs).
Qed.


(** ** JSON: serialization, parsing and their round trip *)

Module JSONFacts.

Import JSON.


(** *** White space *)




(** *** String literals *)




(** *** Numerals *)








(** *** Property order *)




Lemma other_keys_order (bound : option N) (l : list string) :
  other_keys_ok l = true -> key_order_ok bound l = true.
Proof.
  destruct l as [|k l]; [reflexivity |].
  intros H. cbn [key_order_ok].
  destruct (array_index k) eqn:E; [| exact H].
  cbn [other_keys_ok] in H. rewrite E in H. discriminate.
Qed.







(** *** One step of the descent *)







(** *** The head of a serialized value *)




(** *** The round trip *)










(** *** Fuel *)




(** *** What the parser builds is well formed *)













End JSONFacts.

(** ** Arguments *)

Lemma truthy_supplied (args : Args) (p : string) :
  supplied args p ->
  truthy (args !! p) = true
  /\ interpolate (args !! p) = argument args p
  /\ String.eqb (argument args p) EmptyString = false.
Proof.
  intros (s & E & Hs). unfold argument. rewrite E. simpl.
  apply String.eqb_neq in Hs. rewrite Hs. repeat split.
Qed.

Lemma truthy_argument (args : Args) (p : string) :
  truthy (args !! p) = negb (String.eqb (argument args p) EmptyString).
Proof. unfold argument. destruct (args !! p); reflexivity. Qed.

Lemma interpolate_truthy (args : Args) (p : string) :
  truthy (args !! p) = true -> interpolate (args !! p) = argument args p.
Proof. unfold argument. destruct (args !! p); [reflexivity | discriminate]. Qed.

Lemma falsy_missing (args : Args) (p : string) :
  args !! p = None \/ args !! p = Some EmptyString ->
  truthy (args !! p) = false.
Proof. intros [-> | ->]; reflexivity. Qed.

Lemma interpolate_query_free (args : Args) (p : string) :
  (forall q s, args !! q = Some s -> includes "?" s = false) ->
  includes "?" (interpolate (args !! p)) = false.
Proof.
  intros H. destruct (args !! p) as [s|] eqn:E; [exact (H p s E) | reflexivity].
Qed.

Lemma gateway_calls_app (l1 l2 : list event) :
  gateway_calls (l1 ++ l2) = gateway_calls l1 ++ gateway_calls l2.
Proof.
  induction l1 as [|[e|u h] l1 IH]; simpl;
    [reflexivity | f_equal; exact IH | exact IH].
Qed.

Lemma throw_adds_no_call {A} (e : thrown) (log : list event) (path : string) :
  gateway_calls (snd (@throw A e log)) = gateway_calls log ++ [path] -> False.
Proof.
  cbn. intros H. apply (f_equal (@length string)) in H.
  rewrite length_app in H. cbn in H. lia.
Qed.

Create HintDb promise discriminated.
#[local] Hint Unfold makeApiRequest bind try_catch tell fetch settle throw ret
  HEADERS : promise.

(** Cases on the membership of a descriptor in the registry. *)
Ltac tool_cases H :=
  repeat (destruct H as [<- | H]); [ .. | destruct H ].

Section Dispatch.

Variable net : Network.

(** *** The gateway *)

Lemma makeApiRequest_log (endpoint : string) (log : list event) :
  snd (makeApiRequest net endpoint log)
  = log ++ [Invoked endpoint; Fetched (BASE_URL +:+ endpoint) HEADERS].
Proof.
  autounfold with promise.
  destruct (net _ _ _) as [r|[m|v]]; simpl.
  - destruct (ok r); simpl.
    + destruct (json r) as [d|[m|v]]; simpl; rewrite <- app_assoc;
        reflexivity.
    + rewrite <- app_assoc; reflexivity.
  - rewrite <- app_assoc; reflexivity.
  - rewrite <- app_assoc; reflexivity.
Qed.

Lemma makeApiRequest_calls (endpoint : string) (log : list event) :
  gateway_calls (snd (makeApiRequest net endpoint log))
  = gateway_calls log ++ [endpoint].
Proof.
  rewrite makeApiRequest_log, gateway_calls_app. reflexivity.
Qed.

Lemma makeApiRequest_call_inv (endpoint path : string) (log : list event) :
  gateway_calls (snd (makeApiRequest net endpoint log))
    = gateway_calls log ++ [path] ->
  path = endpoint.
Proof.
  rewrite makeApiRequest_calls. intros H. apply app_inv_head in H.
  congruence.
Qed.

(** How the gateway settles, by the cases of the network's answer. *)
Lemma makeApiRequest_result (endpoint : string) (log : list event) :
  fst (makeApiRequest net endpoint log)
  = match net (log ++ [Invoked endpoint]) (BASE_URL +:+ endpoint) HEADERS with
    | Returned response =>
        if ok response then
          match json response with
          | Returned data => Returned data
          | Thrown (ErrorInstance message) =>
              Thrown (ErrorInstance (FETCH_FAILED +:+ message))
          | Thrown (NonError v) => Thrown (NonError v)
          end
        else
          Thrown (ErrorInstance
                    (FETCH_FAILED +:+ "API request failed: "
                       +:+ N_to_string (status response) +:+ " "
                       +:+ statusText response))
    | Thrown (ErrorInstance message) =>
        Thrown (ErrorInstance (FETCH_FAILED +:+ message))
    | Thrown (NonError v) => Thrown (NonError v)
    end.
Proof.
  autounfold with promise.
  destruct (net _ _ _) as [r|[m|v]]; simpl; try reflexivity.
  destruct (ok r); simpl; [| reflexivity].
  destruct (json r) as [d|[m|v]]; reflexivity.
Qed.

(** *** The call handler *)

Lemma callToolHandler_result (params : CallToolParams) (log : list event) :
  callToolHandler net params log
  = match handleToolCall net (params_name params)
            (default ∅ (arguments params)) log with
    | (Returned result, log') => (Returned (success_envelope result), log')
    | (Thrown e, log') =>
        (Returned (error_envelope (reported_message e)), log')
    end.
Proof.
  unfold callToolHandler, try_catch, bind, ret.
  destruct (handleToolCall _ _ _ _) as [[result | [m | v]] log'];
    reflexivity.
Qed.

Lemma callToolHandler_returns (params : CallToolParams) (log : list event) :
  exists r log', callToolHandler net params log = (Returned r, log').
Proof.
  rewrite callToolHandler_result.
  destruct (handleToolCall _ _ _ _) as [[result | e] log']; eauto.
Qed.

Lemma unknown_tool_throws (operation : string) (args : Args)
    (log : list event) :
  ~ In operation (map name TOOLS) ->
  handleToolCall net operation args log
  = (Thrown (ErrorInstance ("Unknown tool: " +:+ operation)), log).
Proof.
  intros Hn. cbn in Hn. unfold handleToolCall.
  repeat match goal with
  | |- context [String.eqb operation ?s] =>
      destruct (String.eqb_spec operation s) as [-> | _];
        [exfalso; apply Hn; tauto |]
  end.
  reflexivity.
Qed.

(** *** The server *)

Lemma serve_lists_tools (reqs : list Request) (log : list event) :
  exists results log',
    serve net reqs log = (Returned results, log')
    /\ Forall2 (fun req res =>
                  req = ListToolsRequest ->
                  res = ToolsListed {| tools := TOOLS |})
         reqs results.
Proof.
  revert log. induction reqs as [|req reqs IH]; intros log.
  - exists [], log. split; [reflexivity | constructor].
  - assert (H : exists r log1,
               handleRequest net req log = (Returned r, log1)
               /\ (req = ListToolsRequest ->
                   r = ToolsListed {| tools := TOOLS |})).
    { destruct req as [|params].
      - exists (ToolsListed {| tools := TOOLS |}), log.
        split; [reflexivity | auto].
      - destruct (callToolHandler_returns params log) as (r & log1 & H).
        exists (ToolCalled r), log1. split; [| discriminate].
        unfold handleRequest, bind, ret. rewrite H. reflexivity. }
    destruct H as (r & log1 & H & Hr).
    destruct (IH log1) as (rs & log2 & Hs & Hall).
    exists (r :: rs), log2. split.
    + cbn [serve]. unfold bind at 1. rewrite H. unfold bind at 1.
      rewrite Hs. reflexivity.
    + constructor; assumption.
Qed.

(** *** The claims about one call *)

(** C1: for each of the six registered operations, a call whose required
    arguments are all present and non-empty builds exactly the path of the
    specification's table and hands it to the gateway, which is invoked
    exactly once, with that path, and fetches it once. *)
Theorem dispatch_builds_table_path
    (t : Tool) (args : Args) (log : list event) :
  In t TOOLS ->
  (forall p, In p (required_params t) -> supplied args p) ->
  exists path,
    path_table (name t) args = Some path
    /\ handleToolCall net (name t) args log = makeApiRequest net path log
    /\ gateway_calls (snd (handleToolCall net (name t) args log))
       = gateway_calls log ++ [path]
    /\ snd (handleToolCall net (name t) args log)
       = log ++ [Invoked path; Fetched (BASE_URL +:+ path) HEADERS].
Proof.
  intros Ht Hreq.
  assert (Hfin : forall path,
    path_table (name t) args = Some path ->
    handleToolCall net (name t) args log = makeApiRequest net path log ->
    exists path,
      path_table (name t) args = Some path
      /\ handleToolCall net (name t) args log = makeApiRequest net path log
      /\ gateway_calls (snd (handleToolCall net (name t) args log))
         = gateway_calls log ++ [path]
      /\ snd (handleToolCall net (name t) args log)
         = log ++ [Invoked path; Fetched (BASE_URL +:+ path) HEADERS]).
  { intros path H1 H2. exists path. rewrite H2.
    auto using makeApiRequest_calls, makeApiRequest_log. }
  tool_cases Ht; cbn in Hreq;
    try (destruct (truthy_supplied args "electionid") as (T & I & _);
         [solve [auto] |]).
  - eapply Hfin; reflexivity.
  - eapply Hfin; [reflexivity |].
    unfold handleToolCall; cbn. rewrite T, I. reflexivity.
  - eapply Hfin; [reflexivity |].
    unfold handleToolCall; cbn. rewrite T, I. reflexivity.
  - eapply Hfin; [reflexivity |].
    unfold handleToolCall; cbn. rewrite T, I. reflexivity.
  - eapply Hfin; [reflexivity |].
    unfold handleToolCall; cbn. rewrite T, I.
    destruct (truthy (args !! "racenumber")) eqn:R.
    + rewrite (interpolate_truthy _ _ R).
      rewrite truthy_argument in R. apply negb_true_iff in R. rewrite R.
      reflexivity.
    + rewrite truthy_argument in R. apply negb_false_iff in R. rewrite R.
      rewrite append_nil_r. reflexivity.
  - destruct (truthy_supplied args "racenumber") as (T' & I' & _);
      [solve [auto] |].
    eapply Hfin; [reflexivity |].
    unfold handleToolCall; cbn. rewrite T, I, T', I'. reflexivity.
Qed.

(** C2: for an operation that declares required arguments, when one of
    them is missing or is the empty string the dispatcher throws an Error
    whose message names that parameter, and the gateway is not invoked:
    the log of events is left as it was. *)
Theorem missing_required_is_validation_error
    (t : Tool) (args : Args) (p : string) (log : list event) :
  In t TOOLS ->
  In p (required_params t) ->
  args !! p = None \/ args !! p = Some EmptyString ->
  exists message,
    handleToolCall net (name t) args log
      = (Thrown (ErrorInstance message), log)
    /\ includes p message = true
    /\ gateway_calls (snd (handleToolCall net (name t) args log))
       = gateway_calls log.
Proof.
  intros Ht Hp Hmiss. apply falsy_missing in Hmiss.
  tool_cases Ht; cbn in Hp;
    repeat (destruct Hp as [<- | Hp]); try destruct Hp;
    unfold handleToolCall; cbn; rewrite Hmiss; cbn;
    try rewrite orb_true_r;
    eexists; (split; [reflexivity | split; reflexivity]).
Qed.

(** C3: [get_election_results] with a present, non-empty election id
    appends the race segment when the race number is present and
    non-empty, and builds the path without it when the race number is
    absent or empty; the gateway is invoked once with that path. *)
Theorem election_results_race_segment
    (args : Args) (electionid : string) (log : list event) :
  args !! "electionid" = Some electionid ->
  electionid <> EmptyString ->
  (forall racenumber,
     args !! "racenumber" = Some racenumber -> racenumber <> EmptyString ->
     let path := "/api/v1/elections/electionresults/" +:+ electionid
                   +:+ "/" +:+ racenumber in
     handleToolCall net "get_election_results" args log
       = makeApiRequest net path log
     /\ gateway_calls
          (snd (handleToolCall net "get_election_results" args log))
        = gateway_calls log ++ [path])
  /\ (args !! "racenumber" = None
      \/ args !! "racenumber" = Some EmptyString ->
      let path := "/api/v1/elections/electionresults/" +:+ electionid in
      handleToolCall net "get_election_results" args log
        = makeApiRequest net path log
      /\ gateway_calls
           (snd (handleToolCall net "get_election_results" args log))
         = gateway_calls log ++ [path]).
Proof.
  intros He Hne. apply String.eqb_neq in Hne.
  split.
  - intros rn Hr Hrn path. apply String.eqb_neq in Hrn.
    assert (H : handleToolCall net "get_election_results" args log
                = makeApiRequest net path log).
    { unfold handleToolCall; cbn. rewrite He, Hr. cbn.
      rewrite Hne, Hrn. reflexivity. }
    rewrite H. split; [reflexivity | apply makeApiRequest_calls].
  - intros Hr path. apply falsy_missing in Hr.
    assert (H : handleToolCall net "get_election_results" args log
                = makeApiRequest net path log).
    { unfold handleToolCall; cbn. rewrite Hr, He. cbn.
      rewrite Hne. reflexivity. }
    rewrite H. split; [reflexivity | apply makeApiRequest_calls].
Qed.

(** C4: a failure inside the gateway that is an Error instance (the fetch
    failing, a non-success status, [response.json()] failing) leaves it as
    an Error whose message is "Failed to fetch from Dane County Elections
    API: " followed by the message of the underlying error; for status 500
    that message contains "500" and the status text; a thrown value that
    is not an Error instance is rethrown unchanged. *)
Theorem gateway_failures_normalized (endpoint : string) (log : list event) :
  let outcome :=
    net (log ++ [Invoked endpoint]) (BASE_URL +:+ endpoint) HEADERS in
  let thrown_by_gateway e :=
    fst (makeApiRequest net endpoint log) = Thrown e in
  (forall message,
     outcome = Thrown (ErrorInstance message) ->
     thrown_by_gateway (ErrorInstance (FETCH_FAILED +:+ message)))
  /\ (forall response,
        outcome = Returned response -> ok response = false ->
        let detail :=
          "API request failed: " +:+ N_to_string (status response)
            +:+ " " +:+ statusText response in
        thrown_by_gateway (ErrorInstance (FETCH_FAILED +:+ detail))
        /\ (status response = 500%N ->
            String.prefix FETCH_FAILED (FETCH_FAILED +:+ detail) = true
            /\ includes "500" (FETCH_FAILED +:+ detail) = true
            /\ includes (statusText response) (FETCH_FAILED +:+ detail)
               = true))
  /\ (forall response message,
        outcome = Returned response -> ok response = true ->
        json response = Thrown (ErrorInstance message) ->
        thrown_by_gateway (ErrorInstance (FETCH_FAILED +:+ message)))
  /\ (forall v,
        outcome = Thrown (NonError v) -> thrown_by_gateway (NonError v))
  /\ (forall response v,
        outcome = Returned response -> ok response = true ->
        json response = Thrown (NonError v) ->
        thrown_by_gateway (NonError v)).
Proof.
  intros outcome thrown_by_gateway. subst thrown_by_gateway outcome.
  cbv beta. rewrite makeApiRequest_result.
  split; [| split; [| split; [| split]]].
  - intros m ->. reflexivity.
  - intros r Hr Hok. rewrite Hr, Hok. split; [reflexivity |].
    intros H1. split; [apply prefix_append | split].
    + rewrite H1. change (N_to_string 500) with "500".
      rewrite <- (append_assoc FETCH_FAILED "API request failed: ").
      apply includes_append.
    + rewrite <- (append_nil_r (statusText r)) at 2.
      rewrite <- !append_assoc.
      rewrite (append_assoc _ (statusText r) EmptyString).
      apply includes_append.
  - intros r m -> -> ->. reflexivity.
  - intros v ->. reflexivity.
  - intros r v -> -> ->. reflexivity.
Qed.

(** C5: a call with a name that is none of the six registered names is
    answered with the envelope whose single text block reads
    "Error: Unknown tool: <name>" and whose error flag is set; the gateway
    is not invoked. *)
Theorem unknown_tool_error_envelope
    (operation : string) (args : option Args) (log : list event) :
  ~ In operation (map name TOOLS) ->
  callToolHandler net
    {| params_name := operation; arguments := args |} log
  = (Returned
       {| content := [{| type := "text";
                         text := "Error: Unknown tool: " +:+ operation |}];
          isError := Some true |}, log)
  /\ gateway_calls
       (snd (callToolHandler net
               {| params_name := operation; arguments := args |} log))
     = gateway_calls log.
Proof.
  intros Hn. rewrite callToolHandler_result. cbn [params_name arguments].
  rewrite (unknown_tool_throws operation _ log Hn). split; reflexivity.
Qed.


(** C7: whatever is thrown during a tool call is caught by the call
    handler, which then returns the envelope with the single text block
    "Error: <message>" and the error flag set; the handler itself, and
    the request it serves, always return and never throw. *)
Theorem errors_become_envelopes
    (params : CallToolParams) (log : list event) :
  (exists r log', callToolHandler net params log = (Returned r, log'))
  /\ (forall e log',
        handleToolCall net (params_name params)
          (default ∅ (arguments params)) log = (Thrown e, log') ->
        callToolHandler net params log
        = (Returned
             {| content := [{| type := "text";
                               text := "Error: " +:+ reported_message e |}];
                isError := Some true |}, log'))
  /\ (exists r log',
        handleRequest net (CallToolRequest params) log
        = (Returned r, log')).
Proof.
  pose proof (callToolHandler_returns params log) as H.
  split; [exact H | split].
  - intros e log' He. rewrite callToolHandler_result, He. reflexivity.
  - destruct H as (r & log' & H). unfold handleRequest, bind, ret.
    rewrite H. eauto.
Qed.

(** C9, as amended: the dispatcher's own path templates hold no question
    mark, so the path it builds has no query component whenever no
    supplied argument value contains a question mark. *)
Theorem built_path_has_no_query
    (operation : string) (args : Args) (log : list event) (path : string) :
  (forall p s, args !! p = Some s -> includes "?" s = false) ->
  gateway_calls (snd (handleToolCall net operation args log))
    = gateway_calls log ++ [path] ->
  query_component path = None.
Proof.
  intros Hargs.
  pose proof (interpolate_query_free args "electionid" Hargs) as He.
  pose proof (interpolate_query_free args "racenumber" Hargs) as Hr.
  change "?" with (str1 "?") in He, Hr.
  unfold handleToolCall.
  repeat match goal with
  | |- context [if ?b then _ else _] => destruct b
  end;
  intros H;
  try (exfalso; exact (throw_adds_no_call _ _ _ H));
  apply makeApiRequest_call_inv in H; subst path;
  apply query_component_none; change "?" with (str1 "?");
  rewrite ?includes_char_append, ?He, ?Hr; reflexivity.
Qed.

(** C10: a call without an arguments mapping is dispatched with the empty
    mapping: [list_elections] goes to the gateway and succeeds when the
    gateway does, every operation with required parameters is answered
    with a validation-error envelope naming them, without any gateway
    call; and when the caught value is not an Error instance the
    envelope reads "Error: Unknown error occurred". *)
Theorem absent_arguments_and_non_errors (log : list event) :
  (forall operation,
     callToolHandler net
       {| params_name := operation; arguments := None |} log
     = callToolHandler net
         {| params_name := operation; arguments := Some ∅ |} log)
  /\ (gateway_calls
        (snd (callToolHandler net
                {| params_name := "list_elections"; arguments := None |}
                log))
      = gateway_calls log ++ ["/api/v1/elections/list"]
      /\ forall data log',
           makeApiRequest net "/api/v1/elections/list" log
             = (Returned data, log') ->
           callToolHandler net
             {| params_name := "list_elections"; arguments := None |} log
           = (Returned (success_envelope data), log'))
  /\ (forall t,
        In t TOOLS -> required_params t <> [] ->
        exists message,
          callToolHandler net
            {| params_name := name t; arguments := None |} log
          = (Returned (error_envelope message), log)
          /\ forall p, In p (required_params t) ->
                       includes p message = true)
  /\ (forall params v log',
        handleToolCall net (params_name params)
          (default ∅ (arguments params)) log
          = (Thrown (NonError v), log') ->
        callToolHandler net params log
        = (Returned
             {| content := [{| type := "text";
                               text := "Error: Unknown error occurred" |}];
                isError := Some true |}, log')).
Proof.
  split; [reflexivity | split; [split | split]].
  - rewrite callToolHandler_result. cbn [params_name arguments default].
    change (handleToolCall net "list_elections" ∅ log)
      with (makeApiRequest net "/api/v1/elections/list" log).
    pose proof (makeApiRequest_calls "/api/v1/elections/list" log) as H.
    destruct (makeApiRequest _ _ _) as [[d | e] log']; exact H.
  - intros data log' H. rewrite callToolHandler_result.
    cbn [params_name arguments default].
    change (handleToolCall net "list_elections" ∅ log)
      with (makeApiRequest net "/api/v1/elections/list" log).
    rewrite H. reflexivity.
  - intros t Ht Hreq. rewrite callToolHandler_result.
    cbn [params_name arguments default].
    tool_cases Ht; try (exfalso; apply Hreq; reflexivity);
      (eexists; split; [reflexivity |]);
      intros p Hp; cbn in Hp;
      repeat (destruct Hp as [<- | Hp]); try destruct Hp; reflexivity.
  - intros params v log' H. rewrite callToolHandler_result, H.
    reflexivity.
Qed.

End Dispatch.

(** ** The registry *)

(** C8: the registry holds exactly six descriptors, with the names and the
    required parameters of the specification's table and no name twice; the
    list-tools handler returns this catalog, and in any session, whatever
    requests came before, every list-tools request is answered with it. *)
Theorem tool_catalog_fixed :
  map name TOOLS
  = ["list_elections"; "get_election"; "get_last_published"; "get_races";
     "get_election_results"; "get_precinct_results"]
  /\ map required_params TOOLS
     = [[]; ["electionid"]; ["electionid"]; ["electionid"]; ["electionid"];
        ["electionid"; "racenumber"]]
  /\ length TOOLS = 6%nat
  /\ NoDup (map name TOOLS)
  /\ (forall net log,
        listToolsHandler log = (Returned {| tools := TOOLS |}, log)
        /\ handleRequest net ListToolsRequest log
           = (Returned (ToolsListed {| tools := TOOLS |}), log))
  /\ (forall net reqs log,
        exists results log',
          serve net reqs log = (Returned results, log')
          /\ Forall2 (fun req res =>
                        req = ListToolsRequest ->
                        res = ToolsListed {| tools := TOOLS |})
               reqs results).
Proof.
  split; [reflexivity |
    split; [reflexivity | split; [reflexivity | split; [| split]]]].
  - apply (bool_decide_unpack _). vm_compute. exact I.
  - intros net log. split; reflexivity.
  - apply serve_lists_tools.
Qed.

(** C9, as stated, fails: an election id with a question mark puts a query
    component into the path the dispatcher builds. *)
Lemma query_reaches_built_path :
  ~ (forall (net : Network) (operation : string) (args : Args)
            (log : list event) (path : string),
       gateway_calls (snd (handleToolCall net operation args log))
         = gateway_calls log ++ [path] ->
       query_component path = None).
Proof.
  intros H.
  specialize (H offline "get_election" {[ "electionid" := "1?x=2" ]} []
                "/api/v1/elections/election/1?x=2").
  assert (E : query_component "/api/v1/elections/election/1?x=2"
              = Some "x=2") by reflexivity.
  rewrite H in E; [discriminate | vm_compute; reflexivity].
Qed.

(** ** The theorems at sample calls *)

Lemma dispatch_builds_table_path_witness :
  In (nth_tool 5) TOOLS
  /\ exists path,
       path_table (name (nth_tool 5)) general_2024_race_5 = Some path
       /\ handleToolCall empty_list_service (name (nth_tool 5))
            general_2024_race_5 []
          = makeApiRequest empty_list_service path []
       /\ gateway_calls
            (snd (handleToolCall empty_list_service (name (nth_tool 5))
                    general_2024_race_5 []))
          = gateway_calls [] ++ [path]
       /\ snd (handleToolCall empty_list_service (name (nth_tool 5))
                 general_2024_race_5 [])
          = [] ++ [Invoked path; Fetched (BASE_URL +:+ path) HEADERS].
Proof.
  assert (Ht : In (nth_tool 5) TOOLS) by (do 5 right; left; reflexivity).
  split; [exact Ht |].
  apply (dispatch_builds_table_path empty_list_service (nth_tool 5)
           general_2024_race_5 [] Ht).
  intros p Hp. cbn in Hp. destruct Hp as [<- | [<- | []]].
  - exists "2024-general". split; [vm_compute; reflexivity | discriminate].
  - exists "5". split; [vm_compute; reflexivity | discriminate].
Defined.

Lemma missing_required_is_validation_error_witness :
  general_2024 !! "racenumber" = None
  /\ exists message,
       handleToolCall offline (name (nth_tool 5)) general_2024 []
         = (Thrown (ErrorInstance message), [])
       /\ includes "racenumber" message = true
       /\ gateway_calls
            (snd (handleToolCall offline (name (nth_tool 5)) general_2024 []))
          = gateway_calls [].
Proof.
  assert (Hmiss : general_2024 !! "racenumber" = None)
    by (vm_compute; reflexivity).
  split; [exact Hmiss |].
  apply (missing_required_is_validation_error offline (nth_tool 5)
           general_2024 "racenumber" []).
  - do 5 right; left; reflexivity.
  - right; left; reflexivity.
  - left; exact Hmiss.
Defined.

Lemma election_results_race_segment_witness :
  handleToolCall empty_list_service "get_election_results"
    general_2024_race_5 []
  = makeApiRequest empty_list_service
      "/api/v1/elections/electionresults/2024-general/5" []
  /\ handleToolCall empty_list_service "get_election_results" general_2024 []
     = makeApiRequest empty_list_service
         "/api/v1/elections/electionresults/2024-general" [].
Proof.
  split.
  - refine (proj1 (proj1 (election_results_race_segment empty_list_service
                            general_2024_race_5 "2024-general" [] _ _)
                     "5" _ _));
      [vm_compute; reflexivity | discriminate
      | vm_compute; reflexivity | discriminate].
  - refine (proj1 (proj2 (election_results_race_segment empty_list_service
                            general_2024 "2024-general" [] _ _) _));
      [vm_compute; reflexivity | discriminate
      | left; vm_compute; reflexivity].
Defined.

Lemma gateway_failures_normalized_witness :
  fst (makeApiRequest failing_service "/api/v1/elections/list" [])
  = Thrown (ErrorInstance status_500_message)
  /\ includes "500" status_500_message = true
  /\ includes "Internal Server Error" status_500_message = true
  /\ fst (makeApiRequest offline "/api/v1/elections/list" [])
     = Thrown (ErrorInstance (FETCH_FAILED +:+ "fetch failed"))
  /\ fst (makeApiRequest odd_transport "/api/v1/elections/list" [])
     = Thrown (NonError (JSON.Str "boom")).
Proof.
  destruct (gateway_failures_normalized failing_service
              "/api/v1/elections/list" []) as (_ & Hstatus & _).
  destruct (Hstatus {| ok := false; status := 500;
                       statusText := "Internal Server Error";
                       json := Returned JSON.Null |} eq_refl eq_refl)
    as [Hthrown H500].
  destruct (H500 eq_refl) as (_ & Hcode & Htext).
  destruct (gateway_failures_normalized offline
              "/api/v1/elections/list" []) as (Htransport & _).
  destruct (gateway_failures_normalized odd_transport
              "/api/v1/elections/list" []) as (_ & _ & _ & Hother & _).
  split; [exact Hthrown | split; [exact Hcode | split; [exact Htext |]]].
  split; [exact (Htransport "fetch failed" eq_refl) |].
  exact (Hother (JSON.Str "boom") eq_refl).
Defined.

Lemma unknown_tool_error_envelope_witness :
  callToolHandler offline
    {| params_name := "delete_election"; arguments := None |} []
  = (Returned
       {| content := [{| type := "text";
                         text := "Error: Unknown tool: delete_election" |}];
          isError := Some true |}, [])
  /\ gateway_calls
       (snd (callToolHandler offline
               {| params_name := "delete_election"; arguments := None |} []))
     = gateway_calls [].
Proof.
  apply (unknown_tool_error_envelope offline "delete_election" None []).
  cbn. intros H.
  repeat (destruct H as [H | H]; [discriminate H |]). exact H.
Defined.


Lemma errors_become_envelopes_witness :
  callToolHandler failing_service
    {| params_name := "list_elections"; arguments := None |} []
  = (Returned
       {| content := [{| type := "text";
                         text := "Error: " +:+ status_500_message |}];
          isError := Some true |}, list_call_log).
Proof.
  exact (proj1 (proj2 (errors_become_envelopes failing_service
                         {| params_name := "list_elections";
                            arguments := None |} []))
           (ErrorInstance status_500_message) list_call_log eq_refl).
Defined.

Lemma built_path_has_no_query_witness :
  gateway_calls (snd (handleToolCall offline "get_election" general_2024 []))
  = gateway_calls [] ++ ["/api/v1/elections/election/2024-general"]
  /\ query_component "/api/v1/elections/election/2024-general" = None.
Proof.
  assert (Hcall :
    gateway_calls
      (snd (handleToolCall offline "get_election" general_2024 []))
    = gateway_calls [] ++ ["/api/v1/elections/election/2024-general"])
    by (vm_compute; reflexivity).
  split; [exact Hcall |].
  apply (built_path_has_no_query offline "get_election" general_2024 []
           "/api/v1/elections/election/2024-general"); [| exact Hcall].
  intros p s H. unfold general_2024 in H.
  apply lookup_singleton_Some in H as [_ <-]. reflexivity.
Defined.

Lemma absent_arguments_and_non_errors_witness :
  callToolHandler empty_list_service
    {| params_name := "list_elections"; arguments := None |} []
  = (Returned (success_envelope (JSON.Obj [("elections", JSON.Arr [])])),
     list_call_log)
  /\ (exists message,
        callToolHandler empty_list_service
          {| params_name := name (nth_tool 5); arguments := None |} []
        = (Returned (error_envelope message), [])
        /\ forall p, In p (required_params (nth_tool 5)) ->
                     includes p message = true)
  /\ callToolHandler odd_transport
       {| params_name := "list_elections"; arguments := None |} []
     = (Returned
          {| content := [{| type := "text";
                            text := "Error: Unknown error occurred" |}];
             isError := Some true |}, list_call_log).
Proof.
  destruct (absent_arguments_and_non_errors empty_list_service [])
    as (_ & (_ & Hlist) & Hrequired & _).
  destruct (absent_arguments_and_non_errors odd_transport [])
    as (_ & _ & _ & Hother).
  split; [exact (Hlist _ list_call_log eq_refl) | split].
  - apply (Hrequired (nth_tool 5)).
    + do 5 right; left; reflexivity.
    + discriminate.
  - exact (Hother {| params_name := "list_elections"; arguments := None |}
             (JSON.Str "boom") list_call_log eq_refl).
Defined.

(** * Further properties of the code *)

(** ** The dispatcher as a table *)

Lemma handleToolCall_decide (net : Network) (operation : string) (args : Args) :
  handleToolCall net operation args
  = run_decision net (decide_call operation args).
Proof.
  unfold handleToolCall, decide_call, find_tool, path_table.
  cbn [find TOOLS name].
  repeat match goal with
  | |- context [String.eqb operation ?s] =>
      destruct (String.eqb operation s) eqn:?
  end;
  cbn [required_params inputSchema required from_option id forallb];
  try reflexivity;
  repeat match goal with
  | |- context [truthy (args !! ?p)] =>
      let T := fresh "T" in
      destruct (truthy (args !! p)) eqn:T;
      [rewrite ?(interpolate_truthy args p T) | ];
      rewrite truthy_argument in T;
      [apply negb_true_iff in T | apply negb_false_iff in T];
      try rewrite T
  end;
  cbn [negb orb andb run_decision]; rewrite ?append_nil_r; reflexivity.
Qed.

Lemma find_tool_Some (operation : string) (t : Tool) :
  find_tool operation = Some t <-> In t TOOLS /\ name t = operation.
Proof.
  unfold find_tool. split.
  - intros H. apply find_some in H as [Hin Heq].
    apply String.eqb_eq in Heq. auto.
  - intros [Hin <-]. tool_cases Hin; reflexivity.
Qed.

Lemma find_tool_None (operation : string) :
  find_tool operation = None <-> ~ In operation (map name TOOLS).
Proof.
  split.
  - intros H Hin. apply in_map_iff in Hin as (t & Hname & Hin).
    rewrite (proj2 (find_tool_Some operation t) (conj Hin Hname)) in H.
    discriminate.
  - intros H. destruct (find_tool operation) as [t|] eqn:E; [| reflexivity].
    apply find_tool_Some in E as [Hin <-]. exfalso. apply H.
    apply in_map. exact Hin.
Qed.

Lemma path_table_registered (t : Tool) (args : Args) :
  In t TOOLS -> exists path, path_table (name t) args = Some path.
Proof. intros Hin. tool_cases Hin; eexists; reflexivity. Qed.

Lemma truthy_iff_supplied (args : Args) (p : string) :
  truthy (args !! p) = true <-> supplied args p.
Proof.
  unfold supplied. destruct (args !! p) as [s|]; cbn [truthy]; split.
  - intros H. exists s. split; [reflexivity |].
    apply String.eqb_neq. apply negb_true_iff. exact H.
  - intros (s' & [= <-] & Hne). apply negb_true_iff.
    apply String.eqb_neq. exact Hne.
  - discriminate.
  - intros (s' & H & _). discriminate.
Qed.

Lemma all_supplied (args : Args) (params : list string) :
  forallb (fun p => truthy (args !! p)) params = true
  <-> forall p, In p params -> supplied args p.
Proof.
  rewrite forallb_forall. split; intros H p Hp;
    apply truthy_iff_supplied; exact (H p Hp).
Qed.

Lemma decide_call_Call (operation : string) (args : Args) (path : string) :
  decide_call operation args = Call path
  <-> valid_call operation args /\ path_table operation args = Some path.
Proof.
  unfold decide_call, valid_call. split.
  - destruct (find_tool operation) as [t|] eqn:Ef; [| discriminate].
    destruct (path_table operation args) as [p|]; [| discriminate].
    destruct (forallb _ _) eqn:Ea; [| discriminate].
    intros [= <-]. apply find_tool_Some in Ef as [Hin Hn].
    split; [| reflexivity]. exists t. rewrite <- all_supplied. auto.
  - intros [(t & Hin & Hn & Hall) Hp].
    rewrite (proj2 (find_tool_Some operation t) (conj Hin Hn)), Hp.
    rewrite (proj2 (all_supplied args _) Hall). reflexivity.
Qed.

Lemma decide_call_valid (operation : string) (args : Args) :
  valid_call operation args <-> exists path, decide_call operation args = Call path.
Proof.
  split.
  - intros Hv. pose proof Hv as (t & Hin & <- & Hall).
    destruct (path_table_registered t args Hin) as [path Hp].
    exists path. apply decide_call_Call. auto.
  - intros [path H]. apply decide_call_Call in H as [H _]. exact H.
Qed.

Lemma run_decision_log (net : Network) (d : decision) (log : list event) :
  snd (run_decision net d log)
  = match d with
    | Call path =>
        log ++ [Invoked path; Fetched (BASE_URL +:+ path) HEADERS]
    | Reject _ => log
    end.
Proof. destruct d; [apply makeApiRequest_log | reflexivity]. Qed.

Lemma makeApiRequest_thrown (net : Network) (endpoint : string)
    (log : list event) (e : thrown) :
  fst (makeApiRequest net endpoint log) = Thrown e ->
  (exists detail, e = ErrorInstance (FETCH_FAILED +:+ detail))
  \/ (exists v, e = NonError v).
Proof.
  rewrite makeApiRequest_result.
  destruct (net _ _ _) as [r | [m | v]].
  - destruct (ok r).
    + destruct (json r) as [d | [m | v]]; intros [= <-]; eauto.
    + intros [= <-]. eauto.
  - intros [= <-]. eauto.
  - intros [= <-]. eauto.
Qed.

(** ** More about the gateway and the dispatcher *)

(** X1: the gateway issues exactly one fetch, of the base URL followed by
    the endpoint and with the two fixed headers, whatever the outcome (a
    failure is not retried); it returns data exactly when the response is
    ok and its body decodes, and then returns the decoded value as it is. *)
Theorem gateway_fetches_once_and_passes_data
    (net : Network) (endpoint : string) (log : list event) :
  snd (makeApiRequest net endpoint log)
  = log ++ [Invoked endpoint; Fetched (BASE_URL +:+ endpoint) HEADERS]
  /\ forall data,
       fst (makeApiRequest net endpoint log) = Returned data
       <-> exists response,
             net (log ++ [Invoked endpoint]) (BASE_URL +:+ endpoint) HEADERS
               = Returned response
             /\ ok response = true
             /\ json response = Returned data.
Proof.
  split; [apply makeApiRequest_log |].
  intros data. rewrite makeApiRequest_result.
  destruct (net _ _ _) as [r | [m | v]].
  - destruct (ok r) eqn:Hok.
    + destruct (json r) as [d | [m | v]] eqn:Hj; split.
      * intros [= <-]. exists r. auto.
      * intros (r' & [= <-] & _ & H). congruence.
      * discriminate.
      * intros (r' & [= <-] & _ & H). congruence.
      * discriminate.
      * intros (r' & [= <-] & _ & H). congruence.
    + split; [discriminate |].
      intros (r' & [= <-] & H & _). congruence.
  - split; [discriminate | intros (r' & H & _); discriminate].
  - split; [discriminate | intros (r' & H & _); discriminate].
Qed.

(** X2: the switch of the dispatcher computes what a table-driven
    dispatcher computes from the registry and the path table: an unknown
    name is rejected, then a missing required parameter of the descriptor,
    with the message made of the descriptor's required parameters, and
    otherwise the gateway is called with the path of the table. *)
Theorem dispatcher_is_table_driven
    (net : Network) (operation : string) (args : Args) (log : list event) :
  handleToolCall net operation args log
  = match decide_call operation args with
    | Call path => makeApiRequest net path log
    | Reject message => (Thrown (ErrorInstance message), log)
    end.
Proof.
  rewrite handleToolCall_decide.
  destruct (decide_call operation args); reflexivity.
Qed.

(** X3: the dispatcher reaches the gateway exactly for a registered
    operation whose required arguments are all present and non-empty, and
    then causes one gateway call and one fetch; in every other case it
    causes no event at all. *)
Theorem gateway_reached_iff_valid
    (net : Network) (operation : string) (args : Args) (log : list event) :
  (valid_call operation args
   <-> exists path,
         snd (handleToolCall net operation args log)
         = log ++ [Invoked path; Fetched (BASE_URL +:+ path) HEADERS])
  /\ (~ valid_call operation args
      <-> snd (handleToolCall net operation args log) = log).
Proof.
  rewrite handleToolCall_decide, run_decision_log, decide_call_valid.
  destruct (decide_call operation args) as [path | message].
  - split; split.
    + intros _. exists path. reflexivity.
    + intros _. exists path. reflexivity.
    + intros H. exfalso. apply H. exists path. reflexivity.
    + intros H. exfalso.
      apply (f_equal (@length event)) in H. rewrite length_app in H.
      cbn in H. lia.
  - split; split.
    + intros [p H]. discriminate.
    + intros [p H]. exfalso.
      apply (f_equal (@length event)) in H. rewrite length_app in H.
      cbn in H. lia.
    + reflexivity.
    + intros _ [p H]. discriminate.
Qed.

(** X4: an argument the descriptor of the operation does not declare is
    ignored: two argument objects that agree on the declared parameters
    are dispatched alike. *)
Theorem undeclared_arguments_ignored
    (net : Network) (t : Tool) (args args' : Args) :
  In t TOOLS ->
  (forall p, In p (declared_params t) -> args !! p = args' !! p) ->
  handleToolCall net (name t) args = handleToolCall net (name t) args'.
Proof.
  intros Ht H. tool_cases Ht; cbn in H; unfold handleToolCall; cbn;
    rewrite ?(H "electionid") by tauto;
    rewrite ?(H "racenumber") by tauto; reflexivity.
Qed.

(** X5: every value the dispatcher throws is of one of three kinds: the
    unknown-tool error, for an unregistered name; the validation error of
    the descriptor, when one of its required parameters is missing or
    empty; both without any event; or what the gateway threw after its
    one call, an Error with the fetch-failure prefix or a value that is
    not an Error. *)
Theorem dispatch_failures_classified
    (net : Network) (operation : string) (args : Args)
    (log log' : list event) (e : thrown) :
  handleToolCall net operation args log = (Thrown e, log') ->
  (log' = log /\ ~ In operation (map name TOOLS)
   /\ e = ErrorInstance ("Unknown tool: " +:+ operation))
  \/ (log' = log
      /\ exists t p,
           In t TOOLS /\ name t = operation
           /\ In p (required_params t) /\ ~ supplied args p
           /\ e = ErrorInstance (required_message (required_params t))
           /\ includes p (required_message (required_params t)) = true)
  \/ (exists path,
        valid_call operation args
        /\ log' = log ++ [Invoked path; Fetched (BASE_URL +:+ path) HEADERS]
        /\ ((exists detail, e = ErrorInstance (FETCH_FAILED +:+ detail))
            \/ (exists v, e = NonError v))).
Proof.
  rewrite handleToolCall_decide. unfold decide_call.
  destruct (find_tool operation) as [t|] eqn:Ef.
  - apply find_tool_Some in Ef as [Hin Hn].
    destruct (path_table_registered t args Hin) as [path Hp].
    rewrite Hn in Hp. rewrite Hp.
    destruct (forallb _ _) eqn:Ea.
    + intros H. right; right. exists path. split; [| split].
      * exists t. rewrite <- all_supplied. auto.
      * rewrite <- (makeApiRequest_log net path log).
        cbn [run_decision] in H. rewrite H. reflexivity.
      * apply (makeApiRequest_thrown net path log).
        cbn [run_decision] in H. rewrite H. reflexivity.
    + intros [= <- <-]. right; left. split; [reflexivity |].
      assert (Hex : exists p, In p (required_params t)
                              /\ truthy (args !! p) = false).
      { clear - Ea. induction (required_params t) as [|p ps IH];
          [discriminate |].
        cbn [forallb] in Ea. apply andb_false_iff in Ea as [Ea | Ea].
        - exists p. split; [left; reflexivity | exact Ea].
        - destruct (IH Ea) as (q & Hq & Hf). exists q.
          split; [right; exact Hq | exact Hf]. }
      destruct Hex as (p & Hp' & Hf). exists t, p.
      repeat split; try assumption.
      * intros Hs. apply truthy_iff_supplied in Hs. congruence.
      * clear - Hin Hp'. tool_cases Hin; cbn in Hp';
          repeat (destruct Hp' as [<- | Hp']); try destruct Hp';
          reflexivity.
  - intros [= <- <-]. left.
    split; [reflexivity | split; [| reflexivity]].
    apply find_tool_None. exact Ef.
Qed.

(** ** Paths and the calls they come from *)

Lemma call_path_decided (net : Network) (operation : string) (args : Args)
    (log : list event) (path : string) :
  gateway_calls (snd (handleToolCall net operation args log))
    = gateway_calls log ++ [path] ->
  decide_call operation args = Call path.
Proof.
  rewrite handleToolCall_decide.
  destruct (decide_call operation args) as [p | m]; cbn [run_decision].
  - intros H. apply makeApiRequest_call_inv in H. congruence.
  - intros H. exfalso. exact (throw_adds_no_call _ _ _ H).
Qed.

Lemma append_inj_l (a b c : string) : a +:+ b = a +:+ c -> b = c.
Proof.
  induction a as [|x a IH]; [auto |].
  rewrite !append_cons. intros [= H]. exact (IH H).
Qed.

Lemma no_slash_cons (c : ascii) (s : string) :
  no_slash (String c s) <-> Ascii.eqb c "/" = false /\ no_slash s.
Proof.
  unfold no_slash. change "/" with (str1 "/").
  rewrite includes_char_cons. apply orb_false_iff.
Qed.

Lemma slash_splits_once (a a' b b' : string) :
  no_slash a -> no_slash a' ->
  a +:+ "/" +:+ b = a' +:+ "/" +:+ b' -> a = a' /\ b = b'.
Proof.
  revert a'. induction a as [|c a IH]; intros [|c' a'] Ha Ha'.
  - intros H. apply (append_inj_l "/") in H. auto.
  - rewrite !append_cons. intros [= <- _].
    apply no_slash_cons in Ha' as [Hc _]. discriminate Hc.
  - rewrite !append_cons. intros [= -> _].
    apply no_slash_cons in Ha as [Hc _]. discriminate Hc.
  - rewrite !append_cons. intros [= <- H].
    apply no_slash_cons in Ha as [_ Ha]. apply no_slash_cons in Ha' as [_ Ha'].
    destruct (IH a' Ha Ha' H) as [-> ->]. auto.
Qed.

Lemma no_slash_not_split (a a' b' : string) :
  no_slash a -> a <> a' +:+ "/" +:+ b'.
Proof.
  unfold no_slash. intros Ha ->. rewrite includes_append in Ha. discriminate.
Qed.

Ltac operation_cases op :=
  repeat match goal with
  | H : context [String.eqb op ?s] |- _ =>
      destruct (String.eqb_spec op s); [subst op |]
  | |- context [String.eqb op ?s] =>
      destruct (String.eqb_spec op s); [subst op |]
  end.

Lemma path_table_operation (operation operation' : string) (args args' : Args)
    (path : string) :
  path_table operation args = Some path ->
  path_table operation' args' = Some path ->
  operation = operation'.
Proof.
  unfold path_table. intros H H'.
  operation_cases operation; operation_cases operation';
    try reflexivity; try discriminate;
    cbn [String.eqb Ascii.eqb Bool.eqb] in H, H';
    rewrite <- H' in H; clear H'; exfalso;
    cbv [String.append] in H; discriminate H.
Qed.

(** X6: the path the dispatcher builds determines the operation: calls of
    two different operations never reach the gateway with the same path,
    whatever their arguments. *)
Theorem path_determines_operation
    (net net' : Network) (operation operation' : string) (args args' : Args)
    (log log' : list event) (path : string) :
  gateway_calls (snd (handleToolCall net operation args log))
    = gateway_calls log ++ [path] ->
  gateway_calls (snd (handleToolCall net' operation' args' log'))
    = gateway_calls log' ++ [path] ->
  operation = operation'.
Proof.
  intros H H'. apply call_path_decided, decide_call_Call in H as [_ H].
  apply call_path_decided, decide_call_Call in H' as [_ H'].
  exact (path_table_operation _ _ _ _ _ H H').
Qed.

(** X7: when the election ids hold no slash, the path also determines the
    arguments: two calls of an operation that reach the gateway with the
    same path have the same election id and, for the two operations with a
    race segment, the same race number. *)
Theorem path_determines_arguments
    (net net' : Network) (operation : string) (args args' : Args)
    (log log' : list event) (path : string) :
  no_slash (argument args "electionid") ->
  no_slash (argument args' "electionid") ->
  gateway_calls (snd (handleToolCall net operation args log))
    = gateway_calls log ++ [path] ->
  gateway_calls (snd (handleToolCall net' operation args' log'))
    = gateway_calls log' ++ [path] ->
  (operation <> "list_elections" ->
   argument args "electionid" = argument args' "electionid")
  /\ (operation = "get_election_results"
      \/ operation = "get_precinct_results" ->
      argument args "racenumber" = argument args' "racenumber").
Proof.
  intros Hs Hs' H H'.
  apply call_path_decided, decide_call_Call in H as [_ H].
  apply call_path_decided, decide_call_Call in H' as [_ H'].
  unfold path_table in H, H'.
  operation_cases operation; try discriminate H;
    rewrite <- H' in H; clear H';
    try (injection H as H; apply append_inj_l in H).
  - split; [congruence | intros [? | ?]; discriminate].
  - split; [auto | intros [? | ?]; discriminate].
  - split; [auto | intros [? | ?]; discriminate].
  - split; [auto | intros [? | ?]; discriminate].
  - destruct (String.eqb_spec (argument args "racenumber") EmptyString)
      as [Er | Er];
      destruct (String.eqb_spec (argument args' "racenumber") EmptyString)
        as [Er' | Er'].
    + rewrite !append_nil_r in H. split; [auto | congruence].
    + rewrite append_nil_r in H. exfalso.
      exact (no_slash_not_split _ _ _ Hs H).
    + rewrite append_nil_r in H. exfalso. symmetry in H.
      exact (no_slash_not_split _ _ _ Hs' H).
    + destruct (slash_splits_once _ _ _ _ Hs Hs' H). auto.
  - destruct (slash_splits_once _ _ _ _ Hs Hs' H). auto.
Qed.

(** Without that condition the path is ambiguous: a slash inside the
    election id reads as the race segment. *)
Example slash_in_election_id_collides :
  gateway_calls
    (snd (handleToolCall offline "get_election_results"
            {[ "electionid" := "2024/5" ]} []))
  = gateway_calls
      (snd (handleToolCall offline "get_election_results"
              {[ "electionid" := "2024"; "racenumber" := "5" ]} [])).
Proof. vm_compute. reflexivity. Qed.

(** ** Envelopes *)

Lemma digit_not_E (c : ascii) : JSON.is_digit c = true -> c <> "E"%char.
Proof. intros H ->. discriminate H. Qed.



(** ** Sessions *)

Lemma fst_makeApiRequest_stationary (net : Network) (endpoint : string)
    (log log' : list event) :
  stationary net ->
  fst (makeApiRequest net endpoint log) = fst (makeApiRequest net endpoint log').
Proof.
  intros Hs. rewrite !makeApiRequest_result.
  rewrite (Hs (log ++ [Invoked endpoint]) (log' ++ [Invoked endpoint])).
  reflexivity.
Qed.

Lemma fst_handleToolCall_stationary (net : Network) (operation : string)
    (args : Args) (log log' : list event) :
  stationary net ->
  fst (handleToolCall net operation args log)
  = fst (handleToolCall net operation args log').
Proof.
  intros Hs. rewrite handleToolCall_decide.
  destruct (decide_call operation args); cbn [run_decision];
    [apply fst_makeApiRequest_stationary; exact Hs | reflexivity].
Qed.

Lemma fst_callToolHandler (net : Network) (params : CallToolParams)
    (log : list event) :
  fst (callToolHandler net params log)
  = match fst (handleToolCall net (params_name params)
                 (default ∅ (arguments params)) log) with
    | Returned result => Returned (success_envelope result)
    | Thrown e => Returned (error_envelope (reported_message e))
    end.
Proof.
  rewrite callToolHandler_result.
  destruct (handleToolCall _ _ _ _) as [[result | e] log']; reflexivity.
Qed.


Lemma handleRequest_returns (net : Network) (req : Request) (log : list event) :
  exists res,
    handleRequest net req log
    = (Returned res,
       match req with
       | ListToolsRequest => log
       | CallToolRequest params => snd (callToolHandler net params log)
       end)
    /\ forall log',
         stationary net -> fst (handleRequest net req log') = Returned res.
Proof.
  destruct req as [|params].
  - exists (ToolsListed {| tools := TOOLS |}). split; reflexivity.
  - destruct (callToolHandler_returns net params log) as (r & log1 & H).
    exists (ToolCalled r). unfold handleRequest, bind, ret. rewrite H.
    split; [reflexivity |]. intros log' Hs.
    pose proof (fst_callToolHandler net params log') as F.
    rewrite (fst_handleToolCall_stationary net _ _ log' log Hs) in F.
    rewrite <- fst_callToolHandler, H in F. cbn [fst] in F.
    destruct (callToolHandler net params log') as [c l]. cbn [fst] in F.
    subst c. reflexivity.
Qed.

(** X9: with a service whose answers do not depend on earlier traffic, a
    session is stateless: every request gets the response it would get if
    it were the only request ever served. *)
Theorem sessions_are_stateless
    (net : Network) (reqs : list Request) (log : list event) :
  stationary net ->
  exists results log',
    serve net reqs log = (Returned results, log')
    /\ Forall2 (fun req res => fst (handleRequest net req []) = Returned res)
         reqs results.
Proof.
  intros Hs. revert log. induction reqs as [|req reqs IH]; intros log.
  - exists [], log. split; [reflexivity | constructor].
  - destruct (handleRequest_returns net req log) as (res & H & Hfresh).
    destruct (IH (match req with
                  | ListToolsRequest => log
                  | CallToolRequest params =>
                      snd (callToolHandler net params log)
                  end)) as (rs & log2 & Hserve & Hall).
    exists (res :: rs), log2. split.
    + cbn [serve]. unfold bind at 1. rewrite H. unfold bind at 1.
      rewrite Hserve. reflexivity.
    + constructor; [exact (Hfresh [] Hs) | exact Hall].
Qed.




(** ** Serialization *)


(** ** Process start *)

Ltac no_such_effect H :=
  cbn in H; repeat (destruct H as [H | H]; [discriminate H |]); destruct H.

Ltac failed_start before error :=
  split; [intros H; decompose [and] H; discriminate |];
  split;
    [intros _; exists before, error;
     split; [reflexivity |];
     split; [intros Hin; no_such_effect Hin |];
     split; [intros Hin; no_such_effect Hin | reflexivity] |];
  split;
    [split;
     [intros _ Hin; no_such_effect Hin
     | intros _; exists 1%Z; cbn; tauto]
    | intros code Hin; cbn in Hin;
      repeat (destruct Hin as [Hin | Hin];
              [try discriminate Hin; injection Hin as <-; reflexivity |]);
      destruct Hin].

(** X12: start-up either completes, and then the process has registered
    the list-tools and the call-tool handler, connected the transport and,
    last, written the readiness line; or one SDK call throws, and then no
    readiness line is written, the effects end with the fatal report of
    what was thrown followed by the exit with status 1, and nothing was
    connected.  So the process exits exactly when it does not report
    readiness, and never with another status. *)
Theorem start_reports_or_exits (sdk : Sdk) :
  (all_return sdk ->
   start sdk
   = [Registered ListToolsRequestSchema; Registered CallToolRequestSchema;
      Connected; ConsoleError READY])
  /\ (~ all_return sdk ->
      exists before error,
        start sdk
        = before ++ [ConsoleErrorWith "Fatal error in main():" error; Exit 1]
        /\ ~ In Connected before
        /\ ~ In (ConsoleError READY) before
        /\ fst (main sdk) = Thrown error)
  /\ ((exists code, In (Exit code) (start sdk))
      <-> ~ In (ConsoleError READY) (start sdk))
  /\ (forall code, In (Exit code) (start sdk) -> code = 1%Z).
Proof.
  unfold all_return, start, main, and_then, call_sdk, effect_of.
  destruct (new_Server sdk) as [[] | e1];
    [destruct (setRequestHandler sdk ListToolsRequestSchema) as [[] | e2];
     [destruct (setRequestHandler sdk CallToolRequestSchema) as [[] | e3];
      [destruct (new_StdioServerTransport sdk) as [[] | e4];
       [destruct (connect sdk) as [[] | e5] | ] | ] | ] | ];
    cbn [app fst].
  1: { split; [reflexivity |]. split; [intros H; exfalso; apply H; tauto |].
       split.
       - split.
         + intros [code Hin]. cbn in Hin.
           repeat (destruct Hin as [Hin | Hin]; [discriminate Hin |]).
           destruct Hin.
         + intros H. exfalso. apply H. cbn. tauto.
       - intros code Hin. cbn in Hin.
         repeat (destruct Hin as [Hin | Hin]; [discriminate Hin |]).
         destruct Hin. }
  1: failed_start [Registered ListToolsRequestSchema;
                   Registered CallToolRequestSchema] e5.
  1: failed_start [Registered ListToolsRequestSchema;
                   Registered CallToolRequestSchema] e4.
  1: failed_start [Registered ListToolsRequestSchema] e3.
  1: failed_start (@nil effect) e2.
  failed_start (@nil effect) e1.
Qed.

(** ** The further theorems at sample calls *)

Lemma undeclared_arguments_ignored_witness :
  handleToolCall offline (name (nth_tool 1)) general_2024
  = handleToolCall offline (name (nth_tool 1)) general_2024_race_5.
Proof.
  apply (undeclared_arguments_ignored offline (nth_tool 1)
           general_2024 general_2024_race_5).
  - right; left; reflexivity.
  - intros p Hp. cbn in Hp. destruct Hp as [<- | []].
    vm_compute. reflexivity.
Defined.

Lemma dispatch_failures_classified_witness :
  handleToolCall offline "get_precinct_results" general_2024 []
  = (Thrown (ErrorInstance "electionid and racenumber are required"), [])
  /\ (([] = @nil event /\ ~ In "get_precinct_results" (map name TOOLS)
       /\ ErrorInstance "electionid and racenumber are required"
          = ErrorInstance ("Unknown tool: " +:+ "get_precinct_results"))
      \/ ([] = @nil event
          /\ exists t p,
               In t TOOLS /\ name t = "get_precinct_results"
               /\ In p (required_params t) /\ ~ supplied general_2024 p
               /\ ErrorInstance "electionid and racenumber are required"
                  = ErrorInstance (required_message (required_params t))
               /\ includes p (required_message (required_params t)) = true)
      \/ (exists path,
            valid_call "get_precinct_results" general_2024
            /\ [] = [] ++ [Invoked path;
                           Fetched (BASE_URL +:+ path) HEADERS]
            /\ ((exists detail,
                   ErrorInstance "electionid and racenumber are required"
                   = ErrorInstance (FETCH_FAILED +:+ detail))
                \/ (exists v,
                      ErrorInstance "electionid and racenumber are required"
                      = NonError v)))).
Proof.
  assert (H : handleToolCall offline "get_precinct_results" general_2024 []
              = (Thrown (ErrorInstance
                           "electionid and racenumber are required"), []))
    by (vm_compute; reflexivity).
  split; [exact H |].
  exact (dispatch_failures_classified offline "get_precinct_results"
           general_2024 [] [] _ H).
Defined.

Lemma path_determines_operation_witness :
  gateway_calls (snd (handleToolCall offline "get_races" general_2024 []))
  = gateway_calls [] ++ ["/api/v1/elections/races/2024-general"]
  /\ "get_races" = "get_races".
Proof.
  assert (H : gateway_calls
                (snd (handleToolCall offline "get_races" general_2024 []))
              = gateway_calls [] ++ ["/api/v1/elections/races/2024-general"])
    by (vm_compute; reflexivity).
  split; [exact H |].
  exact (path_determines_operation offline offline "get_races" "get_races"
           general_2024 general_2024 [] []
           "/api/v1/elections/races/2024-general" H H).
Defined.

Lemma path_determines_arguments_witness :
  no_slash (argument general_2024_race_5 "electionid")
  /\ ("get_precinct_results" <> "list_elections" ->
      argument general_2024_race_5 "electionid"
      = argument general_2024_race_5 "electionid")
  /\ ("get_precinct_results" = "get_election_results"
      \/ "get_precinct_results" = "get_precinct_results" ->
      argument general_2024_race_5 "racenumber"
      = argument general_2024_race_5 "racenumber").
Proof.
  assert (Hs : no_slash (argument general_2024_race_5 "electionid"))
    by (vm_compute; reflexivity).
  assert (H : gateway_calls
                (snd (handleToolCall offline "get_precinct_results"
                        general_2024_race_5 []))
              = gateway_calls []
                ++ ["/api/v1/elections/precinctresults/2024-general/5"])
    by (vm_compute; reflexivity).
  split; [exact Hs |].
  exact (path_determines_arguments offline offline "get_precinct_results"
           general_2024_race_5 general_2024_race_5 [] []
           "/api/v1/elections/precinctresults/2024-general/5" Hs Hs H H).
Defined.

Lemma sessions_are_stateless_witness :
  stationary empty_list_service
  /\ exists results log',
       serve empty_list_service
         [ListToolsRequest;
          CallToolRequest {| params_name := "list_elections";
                             arguments := None |};
          ListToolsRequest] []
       = (Returned results, log')
       /\ Forall2
            (fun req res =>
               fst (handleRequest empty_list_service req []) = Returned res)
            [ListToolsRequest;
             CallToolRequest {| params_name := "list_elections";
                                arguments := None |};
             ListToolsRequest] results.
Proof.
  assert (Hs : stationary empty_list_service)
    by (intros log log' url headers; reflexivity).
  split; [exact Hs |].
  exact (sessions_are_stateless empty_list_service _ [] Hs).
Defined.


Lemma start_reports_or_exits_witness :
  start working_sdk
  = [Registered ListToolsRequestSchema; Registered CallToolRequestSchema;
     Connected; ConsoleError READY]
  /\ exists before error,
       start broken_pipe_sdk
       = before ++ [ConsoleErrorWith "Fatal error in main():" error; Exit 1]
       /\ ~ In Connected before
       /\ ~ In (ConsoleError READY) before
       /\ fst (main broken_pipe_sdk) = Thrown error.
Proof.
  split.
  - apply (proj1 (start_reports_or_exits working_sdk)).
    repeat split.
  - apply (proj1 (proj2 (start_reports_or_exits broken_pipe_sdk))).
    intros (_ & _ & _ & _ & H). discriminate H.
Defined.
